(** * fastapi_users_usage.py: the example router of the fullstack template

  A shallow embedding of
  [src/fastapi_template/templates/fullstack/examples/fastapi_users_usage.py]:
  the backend switch read from the environment when the module is
  imported, the two pydantic models, the four route handlers, the
  router they are registered on and the pass-through middleware. *)

From Stdlib Require Import ZArith.
From stdpp Require Import base option list strings gmap pretty.

Local Open Scope Z_scope.
Local Open Scope string_scope.

(** ** Python values

  The endpoints that return a dict literal put strings, a bool and
  whatever [getattr] finds under the keys; these are the Python values
  the file handles. *)

Inductive value : Type :=
| VNone
| VBool (b : bool)
| VInt (z : Z)
| VStr (s : string).

#[global] Instance value_eq_dec : EqDecision value.
Proof. solve_decision. Defined.

(** A dict with string keys, as the handlers build them. *)
Abbreviation dict := (gmap string value).

(** [str(x)] on the identifier of a user. The identifier's type is the
  [User] model's, which the file imports; all the file does with an
  identifier is to take its string form. *)
Class Identifier (Id : Type) := str : Id -> string.

(** Python's [str] on an [int] is its decimal numeral. *)
#[global] Instance Identifier_int : Identifier Z := pretty.

(** Python's [str] on a [str] is the string itself. *)
#[global] Instance Identifier_str : Identifier string := fun s => s.

(** ** Backend selection (lines 15-22)

  [os.getenv(key, default)] looks the key up in the process
  environment and answers the default when it is not set. Every call
  is recorded, so that the number of reads of a module load can be
  counted. *)

Module Import_time.

Abbreviation environ := (gmap string string).

(** A computation of the module's top level: it reads the environment
    and yields a result with the names it looked up, in order. *)
Definition Load (A : Type) : Type := environ -> A * list string.

#[global] Instance load_ret : MRet Load := fun A a _ => (a, []).

#[global] Instance load_bind : MBind Load := fun A B f m env =>
  let '(a, r1) := m env in
  let '(b, r2) := f a env in
  (b, (r1 ++ r2)%list).

Definition getenv (key default : string) : Load string :=
  fun env => (match env !! key with Some v => v | None => default end, [key]).

(** The two modules an identity resolver can be imported from. *)
Inductive backend : Type :=
  | Sqlalchemy  (* app.auth.manager, app.auth.models *)
  | Beanie.     (* app.auth.manager_beanie, app.auth.models_beanie *)

#[global] Instance backend_eq_dec : EqDecision backend.
Proof. solve_decision. Defined.

Definition manager_module (b : backend) : string :=
  match b with
  | Sqlalchemy => "app.auth.manager"
  | Beanie => "app.auth.manager_beanie"
  end.

Definition models_module (b : backend) : string :=
  match b with
  | Sqlalchemy => "app.auth.models"
  | Beanie => "app.auth.models_beanie"
  end.

(** The module's globals that the switch sets. *)
Record globals : Type := Globals {
  BACKEND : string;
  imported : backend
}.

(** Lines 15-22. *)
Definition module_top : Load globals :=
  BACKEND ← getenv "FASTAPI_USERS_BACKEND" "sqlalchemy";
  if String.eqb BACKEND "sqlalchemy"
  then mret (Globals BACKEND Sqlalchemy)
  else mret (Globals BACKEND Beanie).

Definition import_module (env : environ) : globals := fst (module_top env).
Definition environment_reads (env : environ) : list string := snd (module_top env).

End Import_time.

(** ** The pydantic models (lines 26-35)

  [BaseModel] is pydantic's. A field declared [description: str = None]
  may be left out, and is then [None]: the default is not validated. A
  value that is given for it is validated against [str], and [None] is
  not a [str]. *)

Record ItemCreate : Type := mkItemCreate {
  ic_title : string;
  ic_description : option string
}.

Record ItemResponse : Type := mkItemResponse {
  ir_id : Z;
  ir_title : string;
  ir_description : option string;
  ir_owner_id : string
}.

(** What pydantic raises when a value does not fit its field: the field
    and the kind of the error. *)
Inductive ValidationError : Type :=
  | string_type (loc : string).

#[global] Instance ValidationError_eq_dec : EqDecision ValidationError.
Proof. solve_decision. Defined.

(** [ItemResponse(id=..., title=..., description=..., owner_id=...)] with
    all four keywords given, as both handlers call it. An [int] and two
    [str] fit their fields; the description fits when it is a string. *)
Definition ItemResponse_init (id : Z) (title : string)
    (description : option string) (owner_id : string)
  : ValidationError + ItemResponse :=
  match description with
  | Some d => inr (mkItemResponse id title (Some d) owner_id)
  | None => inl (string_type "description")
  end.

(** ** The user and the handlers (lines 42-80) *)

Section Handlers.

Context {Id : Type} `{Identifier Id}.

(** The [User] entity of the authentication package: the fields the
    handlers read by name, and the further instance attributes a
    project's model may add (a username, say). *)
Record User : Type := mkUser {
  id : Id;
  email : string;
  is_active : bool;
  is_superuser : bool;
  attributes : dict
}.

(** [getattr(user, name, default)] for a name that is not one of the
    fields above. *)
Definition getattr (user : User) (name : string) (default : value) : value :=
  match attributes user !! name with
  | Some v => v
  | None => default
  end.

(** Lines 42-49. *)
Definition protected_endpoint (user : User) : dict :=
  <["username" := getattr user "username" (VStr "N/A")]>
  (<["user_id" := VStr (str (id user))]>
  (<["message" := VStr ("Hello " +:+ email user +:+ "!")]> ∅)).

(** Lines 52-55. *)
Definition admin_only_endpoint (user : User) : dict :=
  <["is_superuser" := VBool (is_superuser user)]>
  (<["message" := VStr ("Hello admin " +:+ email user +:+ "!")]> ∅).

(** Lines 58-65. *)
Definition create_item (item : ItemCreate) (user : User)
  : ValidationError + ItemResponse :=
  ItemResponse_init 1 (ic_title item) (ic_description item) (str (id user)).

(** Lines 68-80. The description given is a string, so the constructor
    returns the record. *)
Definition get_user_items (user : User) : list ItemResponse :=
  [ mkItemResponse 1 "User's Item 1" (Some "This belongs to the current user")
      (str (id user)) ].

End Handlers.

Arguments User Id : clear implicits.

(** Python's [sub in s] on strings. *)
Fixpoint contains (sub s : string) : bool :=
  String.prefix sub s ||
  match s with
  | EmptyString => false
  | String _ s' => contains sub s'
  end.

(** ** Requests, responses and the framework's dispatch

    The handlers are registered on [example_router] with a dependency
    each ([Depends(current_active_user)], [Depends(current_superuser)]).
    The framework resolves a route's dependency first and calls the
    handler with the resolved user; an exception raised by the dependency
    ends the request. A run records which handler bodies were entered.

    A request ends with a response or with an exception, held with the
    status the client gets. *)

Record HTTPException : Type := mkHTTPException {
  status_code : Z;
  detail : string
}.

(** What the body of a request is to a route that declares
    [item: ItemCreate]. *)
Inductive json_body : Type :=
  | NotJSON                    (* bytes that do not decode as JSON *)
  | NotAnItem                  (* no body, or JSON that is no ItemCreate *)
  | Item (item : ItemCreate).  (* JSON that validates as this ItemCreate *)

Record Request : Type := mkRequest {
  method : string;
  path : string;
  headers : list (string * string);
  body : json_body
}.

(** The framework's answer to a handler body that raises an exception
    other than an [HTTPException]. *)
Definition internal_server_error : HTTPException :=
  mkHTTPException 500 "Internal Server Error".

Inductive content : Type :=
  | JSONDict (d : dict)
  | JSONItem (i : ItemResponse)
  | JSONItems (l : list ItemResponse).

Record Response : Type := mkResponse {
  status : Z;
  payload : content
}.

Inductive endpoint : Type :=
  | Protected
  | AdminOnly
  | CreateItem
  | GetUserItems.

#[global] Instance endpoint_eq_dec : EqDecision endpoint.
Proof. solve_decision. Defined.

(** An awaited computation: the bodies entered so far, in order, and an
    exception or a result. *)
Definition Async (A : Type) : Type := list endpoint * (HTTPException + A).

#[global] Instance async_ret : MRet Async := fun A a => ([], inr a).

#[global] Instance async_bind : MBind Async := fun A B f m =>
  match m with
  | (t, inl e) => (t, inl e)
  | (t, inr a) => let '(t', r) := f a in ((t ++ t')%list, r)
  end.

Definition raise {A} (e : HTTPException) : Async A := ([], inl e).

Definition entered {A} (m : Async A) : list endpoint := fst m.
Definition outcome {A} (m : Async A) : HTTPException + A := snd m.

(** The handler body of an endpoint starts to run. *)
Definition enter (h : endpoint) : Async unit := ([h], inr tt).

Section Application.

Context {Id : Type} `{Identifier Id}.

(** What the file imports from the authentication package: the two
    dependencies, each resolving the caller of a request to a user or
    raising. *)
Record AuthModule : Type := mkAuthModule {
  current_active_user : Request -> HTTPException + User Id;
  current_superuser : Request -> HTTPException + User Id
}.

(** [app.auth.manager] and [app.auth.manager_beanie]. *)
Variable manager manager_beanie : AuthModule.

(** The framework's answers outside the file: no route for a request,
    and a body that does not parse as the declared model. *)
Variable no_route : Request -> HTTPException.
Variable invalid_body : Request -> HTTPException.

Definition auth_module (b : Import_time.backend) : AuthModule :=
  match b with
  | Import_time.Sqlalchemy => manager
  | Import_time.Beanie => manager_beanie
  end.

(** [Depends(dep)]: the framework calls the dependency on the request. *)
Definition Depends {A} (dep : Request -> HTTPException + A) (request : Request)
  : Async A := ([], dep request).

(** A route with a body parameter decodes the body's bytes before it
    resolves anything. *)
Definition Decode (request : Request) : Async unit :=
  match body request with
  | NotJSON => raise (invalid_body request)
  | _ => mret tt
  end.

(** The body parameter [item: ItemCreate], validated after the
    dependencies are resolved. *)
Definition Body (request : Request) : Async ItemCreate :=
  match body request with
  | Item item => mret item
  | _ => raise (invalid_body request)
  end.

(** The handler's return value, or the exception it raised. *)
Definition returned {A} (r : ValidationError + A) : Async A :=
  match r with
  | inr a => mret a
  | inl _ => raise internal_server_error
  end.

Section Routes.

Variable auth : AuthModule.

Definition route_protected (request : Request) : Async Response :=
  user ← Depends (current_active_user auth) request;
  _ ← enter Protected;
  mret (mkResponse 200 (JSONDict (protected_endpoint user))).

Definition route_admin_only (request : Request) : Async Response :=
  user ← Depends (current_superuser auth) request;
  _ ← enter AdminOnly;
  mret (mkResponse 200 (JSONDict (admin_only_endpoint user))).

Definition route_create_item (request : Request) : Async Response :=
  _ ← Decode request;
  user ← Depends (current_active_user auth) request;
  item ← Body request;
  _ ← enter CreateItem;
  response ← returned (create_item item user);
  mret (mkResponse 200 (JSONItem response)).

Definition route_get_user_items (request : Request) : Async Response :=
  user ← Depends (current_active_user auth) request;
  _ ← enter GetUserItems;
  mret (mkResponse 200 (JSONItems (get_user_items user))).

(** Line 39 and the four decorators: method, path under the prefix,
    route. *)
Definition router_prefix : string := "/examples".

Definition example_router : list (string * string * (Request -> Async Response)) :=
  [ ("GET", router_prefix +:+ "/protected", route_protected);
    ("GET", router_prefix +:+ "/admin-only", route_admin_only);
    ("POST", router_prefix +:+ "/items", route_create_item);
    ("GET", router_prefix +:+ "/items", route_get_user_items) ].

Definition matches (request : Request)
  (r : string * string * (Request -> Async Response)) : bool :=
  String.eqb (method request) (fst (fst r)) && String.eqb (path request) (snd (fst r)).

(** [app.include_router(example_router)]: the first matching route
    serves the request. *)
Definition router (request : Request) : Async Response :=
  match List.find (matches request) example_router with
  | Some r => snd r request
  | None => raise (no_route request)
  end.

(** Lines 93-97. *)
Definition add_user_info (request : Request)
  (call_next : Request -> Async Response) : Async Response :=
  response ← call_next request;
  mret response.

(** The application without and with the middleware registered. *)
Definition app_without_middleware (request : Request) : Async Response :=
  router request.

Definition app (request : Request) : Async Response :=
  add_user_info request router.

End Routes.

(** The application a process serves after importing the module in
    environment [env]. *)
Definition serve (env : Import_time.environ) (request : Request) : Async Response :=
  app (auth_module (Import_time.imported (Import_time.import_module env))) request.

End Application.

(** ** A concrete deployment

    Users with integer identifiers and an authentication module that
    reads the caller from the [Authorization] header, to run the
    application on. *)

Module Demo.

Definition alice : User Z :=
  mkUser 42 "alice@example.com" true false ∅.

Definition root : User Z :=
  mkUser 7 "root@example.com" true true {[ "username" := VStr "root" ]}.

Definition header (request : Request) (name : string) : option string :=
  snd <$> List.find (fun kv => String.eqb (fst kv) name) (headers request).

Definition unauthorized : HTTPException := mkHTTPException 401 "Unauthorized".
Definition forbidden : HTTPException := mkHTTPException 403 "Forbidden".

Definition active_user (request : Request) : HTTPException + User Z :=
  match header request "Authorization" with
  | Some "Bearer alice" => inr alice
  | Some "Bearer root" => inr root
  | _ => inl unauthorized
  end.

Definition superuser (request : Request) : HTTPException + User Z :=
  match active_user request with
  | inr u => if is_superuser u then inr u else inl forbidden
  | inl e => inl e
  end.

Definition auth : AuthModule := mkAuthModule active_user superuser.

Definition no_route (request : Request) : HTTPException :=
  mkHTTPException 404 "Not Found".

Definition invalid_body (request : Request) : HTTPException :=
  mkHTTPException 422 "Unprocessable Entity".

Definition get (p : string) (who : option string) : Request :=
  mkRequest "GET" p
    (match who with Some w => [("Authorization", "Bearer " +:+ w)] | None => [] end)
    NotAnItem.

Definition post (p : string) (who : option string) (item : ItemCreate) : Request :=
  mkRequest "POST" p
    (match who with Some w => [("Authorization", "Bearer " +:+ w)] | None => [] end)
    (Item item).

Definition post_bytes (p : string) (who : option string) : Request :=
  mkRequest "POST" p
    (match who with Some w => [("Authorization", "Bearer " +:+ w)] | None => [] end)
    NotJSON.

Definition application : Request -> Async Response :=
  app no_route invalid_body auth.

End Demo.

(** * Properties *)

(** ** Strings *)

Lemma prefix_app (s t : string) : String.prefix s (s +:+ t) = true.
Proof.
  induction s as [|a s IH]; simpl.
  - by destruct t.
  - destruct (Ascii.ascii_dec a a) as [_|Hne]; [exact IH | by destruct Hne].
Qed.

Lemma contains_prefix (sub s : string) :
  String.prefix sub s = true -> contains sub s = true.
Proof. intros Hp. destruct s; cbn [contains]; rewrite Hp; reflexivity. Qed.

Lemma contains_app_l (sub pre s : string) :
  contains sub s = true -> contains sub (pre +:+ s) = true.
Proof.
  intros Hs. induction pre as [|a pre IH]; simpl; [exact Hs|].
  rewrite IH. apply orb_true_r.
Qed.

Lemma contains_middle (pre sub post : string) :
  contains sub (pre +:+ sub +:+ post) = true.
Proof. apply contains_app_l, contains_prefix, prefix_app. Qed.

Example contains_hello : contains "a@b.c" "Hello a@b.c!" = true.
Proof. reflexivity. Qed.

Example contains_not : contains "a@b.d" "Hello a@b.c!" = false.
Proof. reflexivity. Qed.

(** ** The handlers *)

Section Handler_facts.

Context {Id : Type} `{Identifier Id}.

Implicit Types (user : User Id) (item : ItemCreate).

Lemma protected_endpoint_message user :
  protected_endpoint user !! "message" = Some (VStr ("Hello " +:+ email user +:+ "!")).
Proof. unfold protected_endpoint. by simplify_map_eq. Qed.

Lemma protected_endpoint_user_id user :
  protected_endpoint user !! "user_id" = Some (VStr (str (id user))).
Proof. unfold protected_endpoint. by simplify_map_eq. Qed.

Lemma protected_endpoint_username user :
  protected_endpoint user !! "username" = Some (getattr user "username" (VStr "N/A")).
Proof. unfold protected_endpoint. by simplify_map_eq. Qed.

Lemma protected_endpoint_keys user :
  dom (protected_endpoint user) = {[ "message"; "user_id"; "username" ]}.
Proof. unfold protected_endpoint. rewrite !dom_insert_L, dom_empty_L. set_solver. Qed.

Lemma admin_only_endpoint_keys user :
  dom (admin_only_endpoint user) = {[ "message"; "is_superuser" ]}.
Proof. unfold admin_only_endpoint. rewrite !dom_insert_L, dom_empty_L. set_solver. Qed.

(** C1. [create_item] on a body with title "T" and no description, for a
    user whose identifier has the string form "42", does not return the
    item with id 1, title "T", no description and owner "42": it passes
    the missing description on as [description=None], and the
    constructor of [ItemResponse] raises on it. *)
Theorem create_item_T_42_raises item user :
  ic_title item = "T" ->
  ic_description item = None ->
  str (id user) = "42" ->
  create_item item user = inl (string_type "description") /\
  create_item item user <> inr (mkItemResponse 1 "T" None "42").
Proof.
  intros Ht Hd Hi. unfold create_item. rewrite Ht, Hd, Hi. simpl.
  split; [reflexivity | discriminate].
Qed.

(** C2. For a user who holds the superuser flag, [admin_only_endpoint]
    returns a dict whose [is_superuser] entry is [True]. *)
Theorem admin_only_endpoint_is_superuser user :
  is_superuser user = true ->
  admin_only_endpoint user !! "is_superuser" = Some (VBool true).
Proof.
  intros Hs. unfold admin_only_endpoint. rewrite lookup_insert_eq, Hs. reflexivity.
Qed.

(** C4. The [message] of [protected_endpoint] is a string that contains
    the user's email, and [user_id] is the string form of the user's
    identifier. *)
Theorem protected_endpoint_email_and_id user :
  (exists msg, protected_endpoint user !! "message" = Some (VStr msg) /\
               contains (email user) msg = true) /\
  protected_endpoint user !! "user_id" = Some (VStr (str (id user))).
Proof.
  split; [|apply protected_endpoint_user_id].
  eexists. split; [apply protected_endpoint_message|].
  apply contains_middle.
Qed.

(** C5. [get_user_items] returns a list of exactly one item; its owner
    is the string form of the user's identifier and its title is the
    literal "User's Item 1". *)
Theorem get_user_items_sole_item user :
  exists it, get_user_items user = [it] /\
             ir_owner_id it = str (id user) /\
             ir_title it = "User's Item 1".
Proof. eexists. split; [reflexivity|]. split; reflexivity. Qed.

(** C10. The sole item of [get_user_items] has id 1 and the fixed
    description, whoever the user is: two users get items that agree on
    both fields. *)
Theorem get_user_items_fixed_fields user :
  (exists it, get_user_items user = [it] /\
              ir_id it = 1 /\
              ir_description it = Some "This belongs to the current user") /\
  (forall user', ir_id <$> get_user_items user' = ir_id <$> get_user_items user /\
                 ir_description <$> get_user_items user' =
                 ir_description <$> get_user_items user).
Proof.
  split.
  - eexists. split; [reflexivity|]. split; reflexivity.
  - intros user'. split; reflexivity.
Qed.

End Handler_facts.

Example demo_post_items :
  Demo.application
    (Demo.post "/examples/items" (Some "alice") (mkItemCreate "T" (Some "a thing")))
  = ([CreateItem],
     inr (mkResponse 200 (JSONItem (mkItemResponse 1 "T" (Some "a thing") "42")))).
Proof. vm_compute. reflexivity. Qed.

Example demo_post_items_no_description :
  Demo.application (Demo.post "/examples/items" (Some "alice") (mkItemCreate "T" None))
  = ([CreateItem], inl internal_server_error).
Proof. vm_compute. reflexivity. Qed.

Example demo_post_items_not_json :
  Demo.application (Demo.post_bytes "/examples/items" None)
  = ([], inl (mkHTTPException 422 "Unprocessable Entity")).
Proof. vm_compute. reflexivity. Qed.

Example demo_get_items_anonymous :
  Demo.application (Demo.get "/examples/items" None) = ([], inl Demo.unauthorized).
Proof. vm_compute. reflexivity. Qed.

Example demo_admin_only_alice :
  Demo.application (Demo.get "/examples/admin-only" (Some "alice"))
  = ([], inl Demo.forbidden).
Proof. vm_compute. reflexivity. Qed.

Example demo_unknown_path :
  Demo.application (Demo.get "/protected" (Some "alice"))
  = ([], inl (mkHTTPException 404 "Not Found")).
Proof. vm_compute. reflexivity. Qed.

Lemma create_item_T_42_raises_witness :
  str (id Demo.alice) = "42" /\
  create_item (mkItemCreate "T" None) Demo.alice = inl (string_type "description") /\
  create_item (mkItemCreate "T" None) Demo.alice <> inr (mkItemResponse 1 "T" None "42").
Proof.
  split; [reflexivity|].
  apply (create_item_T_42_raises (mkItemCreate "T" None) Demo.alice); reflexivity.
Defined.

Lemma admin_only_endpoint_is_superuser_witness :
  is_superuser Demo.root = true /\
  admin_only_endpoint Demo.root !! "is_superuser" = Some (VBool true).
Proof.
  split; [reflexivity|].
  apply (admin_only_endpoint_is_superuser Demo.root); reflexivity.
Defined.

(** ** Dispatch *)

Section Dispatch_facts.

Context {Id : Type} `{Identifier Id}.
Variable no_route invalid_body : Request -> HTTPException.
Variable auth : @AuthModule Id.

(** Awaiting a computation and returning its result is the computation. *)
Lemma async_bind_ret {A} (m : Async A) : (a ← m; mret a) = m.
Proof.
  destruct m as [t [e|a]]; unfold mbind, async_bind, mret, async_ret; simpl.
  - reflexivity.
  - by rewrite app_nil_r.
Qed.

Lemma add_user_info_call_next request (call_next : Request -> Async Response) :
  add_user_info request call_next = call_next request.
Proof. unfold add_user_info. apply async_bind_ret. Qed.

Lemma router_protected request :
  method request = "GET" -> path request = "/examples/protected" ->
  router no_route invalid_body auth request = route_protected auth request.
Proof. intros Hm Hp. unfold router, matches. simpl. by rewrite Hm, Hp. Qed.

Lemma router_admin_only request :
  method request = "GET" -> path request = "/examples/admin-only" ->
  router no_route invalid_body auth request = route_admin_only auth request.
Proof. intros Hm Hp. unfold router, matches. simpl. by rewrite Hm, Hp. Qed.

Lemma route_protected_run request :
  route_protected auth request =
  match current_active_user auth request with
  | inl e => ([], inl e)
  | inr user => ([Protected], inr (mkResponse 200 (JSONDict (protected_endpoint user))))
  end.
Proof.
  unfold route_protected, Depends, mbind, async_bind.
  by destruct (current_active_user auth request).
Qed.

Lemma route_admin_only_run request :
  route_admin_only auth request =
  match current_superuser auth request with
  | inl e => ([], inl e)
  | inr user => ([AdminOnly], inr (mkResponse 200 (JSONDict (admin_only_endpoint user))))
  end.
Proof.
  unfold route_admin_only, Depends, mbind, async_bind.
  by destruct (current_superuser auth request).
Qed.

(** C3. For a resolved user, [GET /protected] succeeds; the [username]
    of the answer is the placeholder "N/A" when the user has no
    [username] attribute, and the attribute's value when it has one. *)
Theorem protected_endpoint_username_fallback request user :
  current_active_user auth request = inr user ->
  exists d,
    route_protected auth request = ([Protected], inr (mkResponse 200 (JSONDict d))) /\
    d = protected_endpoint user /\
    (attributes user !! "username" = None -> d !! "username" = Some (VStr "N/A")) /\
    (forall v, attributes user !! "username" = Some v -> d !! "username" = Some v).
Proof.
  intros Hu. exists (protected_endpoint user).
  rewrite route_protected_run, Hu. split; [reflexivity|]. split; [reflexivity|].
  rewrite protected_endpoint_username. unfold getattr.
  split; [intros ->; reflexivity | intros v ->; reflexivity].
Qed.

(** C6. On [GET /examples/protected] and [GET /examples/admin-only], when
    the route's dependency raises, the application enters no handler
    body and ends with that same exception; the route's handler body is
    entered exactly when the dependency resolved a user. *)
Theorem dependency_failure_propagates request h dep :
  method request = "GET" ->
  (path request = "/examples/protected" /\ h = Protected /\
   dep = current_active_user auth) \/
  (path request = "/examples/admin-only" /\ h = AdminOnly /\
   dep = current_superuser auth) ->
  (forall e, dep request = inl e -> app no_route invalid_body auth request = ([], inl e)) /\
  (h ∈ entered (app no_route invalid_body auth request) <-> exists user, dep request = inr user).
Proof.
  intros Hm Hr. unfold app. rewrite add_user_info_call_next.
  destruct Hr as [(Hp & -> & ->)|(Hp & -> & ->)].
  - rewrite (router_protected _ Hm Hp), route_protected_run.
    destruct (current_active_user auth request) as [e|u]; simpl.
    + split; [by intros ? [= ->]|].
      split; [by intros ?%elem_of_nil | by intros [? [=]]].
    + split; [by intros ? [=]|].
      split; [by eauto | intros _; by apply list_elem_of_singleton].
  - rewrite (router_admin_only _ Hm Hp), route_admin_only_run.
    destruct (current_superuser auth request) as [e|u]; simpl.
    + split; [by intros ? [= ->]|].
      split; [by intros ?%elem_of_nil | by intros [? [=]]].
    + split; [by intros ? [=]|].
      split; [by eauto | intros _; by apply list_elem_of_singleton].
Qed.

(** C7. For every request, the application with [add_user_info]
    registered gives what the application without it gives: the same
    outcome (status and body, or exception), with the same handler
    bodies entered. *)
Theorem add_user_info_transparent request :
  app no_route invalid_body auth request = app_without_middleware no_route invalid_body auth request.
Proof.
  unfold app, app_without_middleware.
  apply add_user_info_call_next.
Qed.

End Dispatch_facts.

Lemma protected_endpoint_username_fallback_witness :
  current_active_user Demo.auth (Demo.get "/examples/protected" (Some "alice"))
    = inr Demo.alice /\
  exists d,
    route_protected Demo.auth (Demo.get "/examples/protected" (Some "alice"))
      = ([Protected], inr (mkResponse 200 (JSONDict d))) /\
    d = protected_endpoint Demo.alice /\
    (attributes Demo.alice !! "username" = None -> d !! "username" = Some (VStr "N/A")) /\
    (forall v, attributes Demo.alice !! "username" = Some v -> d !! "username" = Some v).
Proof.
  split; [reflexivity|].
  apply (protected_endpoint_username_fallback Demo.auth
           (Demo.get "/examples/protected" (Some "alice")) Demo.alice).
  reflexivity.
Defined.

Example demo_protected_alice :
  protected_endpoint Demo.alice !! "username" = Some (VStr "N/A").
Proof. vm_compute. reflexivity. Qed.

Example demo_protected_root :
  protected_endpoint Demo.root !! "username" = Some (VStr "root").
Proof. vm_compute. reflexivity. Qed.

Lemma dependency_failure_propagates_witness :
  (forall e, current_active_user Demo.auth (Demo.get "/examples/protected" None) = inl e ->
     Demo.application (Demo.get "/examples/protected" None) = ([], inl e)) /\
  (Protected ∈ entered (Demo.application (Demo.get "/examples/protected" None)) <->
   exists user, current_active_user Demo.auth (Demo.get "/examples/protected" None)
                = inr user).
Proof.
  apply (dependency_failure_propagates Demo.no_route Demo.invalid_body Demo.auth
           (Demo.get "/examples/protected" None) Protected
           (current_active_user Demo.auth)).
  - reflexivity.
  - left. split; [reflexivity|]. split; reflexivity.
Defined.

(** ** The backend switch *)

Section Import_facts.

Import Import_time.

Implicit Types env : environ.

Lemma module_top_run env :
  module_top env =
  (let v := match env !! "FASTAPI_USERS_BACKEND" with
            | Some v => v
            | None => "sqlalchemy"
            end in
   (Globals v (if String.eqb v "sqlalchemy" then Sqlalchemy else Beanie),
    ["FASTAPI_USERS_BACKEND"])).
Proof.
  unfold module_top, mbind, load_bind, getenv. simpl.
  by destruct (String.eqb _ "sqlalchemy").
Qed.

(** C8. Importing the module reads [FASTAPI_USERS_BACKEND], and nothing
    else, once. The value read decides the import: [BACKEND] is the
    variable's value, or "sqlalchemy" when it is unset; the import is the
    sqlalchemy-backed module when that is "sqlalchemy" and the
    document-store one otherwise; with the variable unset it is the
    sqlalchemy-backed module. *)
Theorem backend_read_once_default_sqlalchemy env :
  environment_reads env = ["FASTAPI_USERS_BACKEND"] /\
  imported (import_module env) =
    (if String.eqb (BACKEND (import_module env)) "sqlalchemy"
     then Sqlalchemy else Beanie) /\
  (env !! "FASTAPI_USERS_BACKEND" = None ->
   BACKEND (import_module env) = "sqlalchemy" /\
   imported (import_module env) = Sqlalchemy /\
   manager_module (imported (import_module env)) = "app.auth.manager") /\
  (forall v, env !! "FASTAPI_USERS_BACKEND" = Some v ->
   BACKEND (import_module env) = v /\
   (v = "sqlalchemy" -> imported (import_module env) = Sqlalchemy /\
      manager_module (imported (import_module env)) = "app.auth.manager") /\
   (v <> "sqlalchemy" -> imported (import_module env) = Beanie /\
      manager_module (imported (import_module env)) = "app.auth.manager_beanie")).
Proof.
  unfold environment_reads, import_module. rewrite module_top_run. simpl.
  split; [reflexivity|]. split; [reflexivity|]. split.
  - intros ->. simpl. by repeat split.
  - intros v ->. simpl. split; [reflexivity|]. split.
    + intros ->. by split.
    + intros Hne. destruct (String.eqb_spec v "sqlalchemy") as [Heq|_];
        [by destruct Hne | by split].
Qed.

(** C9. When [FASTAPI_USERS_BACKEND] is set to any string other than
    "sqlalchemy", the import succeeds and is the document-store (beanie)
    module. *)
Theorem backend_other_value_beanie env v :
  env !! "FASTAPI_USERS_BACKEND" = Some v ->
  v <> "sqlalchemy" ->
  import_module env = Globals v Beanie /\
  manager_module (imported (import_module env)) = "app.auth.manager_beanie" /\
  models_module (imported (import_module env)) = "app.auth.models_beanie".
Proof.
  intros Hv Hne. unfold import_module. rewrite module_top_run, Hv. simpl.
  destruct (String.eqb_spec v "sqlalchemy") as [->|_]; [by destruct Hne|].
  by repeat split.
Qed.

End Import_facts.

(** The application that is served takes its dependencies from the
    module the switch imported. *)
Lemma serve_unset {Id : Type} `{Identifier Id} (manager manager_beanie : @AuthModule Id)
    (no_route invalid_body : Request -> HTTPException)
    (env : gmap string string) (request : Request) :
  env !! "FASTAPI_USERS_BACKEND" = None ->
  serve manager manager_beanie no_route invalid_body env request
  = app no_route invalid_body manager request.
Proof.
  intros Hv. unfold serve, Import_time.import_module.
  rewrite module_top_run, Hv. reflexivity.
Qed.

Lemma serve_other {Id : Type} `{Identifier Id} (manager manager_beanie : @AuthModule Id)
    (no_route invalid_body : Request -> HTTPException)
    (env : gmap string string) (v : string) (request : Request) :
  env !! "FASTAPI_USERS_BACKEND" = Some v -> v <> "sqlalchemy" ->
  serve manager manager_beanie no_route invalid_body env request
  = app no_route invalid_body manager_beanie request.
Proof.
  intros Hv Hne. unfold serve, Import_time.import_module.
  rewrite module_top_run, Hv. simpl.
  destruct (String.eqb_spec v "sqlalchemy") as [->|_]; [by destruct Hne | reflexivity].
Qed.

Lemma backend_read_once_default_sqlalchemy_witness :
  Import_time.environment_reads ∅ = ["FASTAPI_USERS_BACKEND"] /\
  Import_time.imported (Import_time.import_module ∅) = Import_time.Sqlalchemy /\
  Import_time.imported
    (Import_time.import_module {[ "FASTAPI_USERS_BACKEND" := "beanie" ]})
  = Import_time.Beanie.
Proof.
  destruct (backend_read_once_default_sqlalchemy ∅) as (Hr & _ & Hd & _).
  destruct (backend_read_once_default_sqlalchemy {[ "FASTAPI_USERS_BACKEND" := "beanie" ]})
    as (_ & _ & _ & Hv).
  split; [exact Hr|]. split.
  - apply Hd. reflexivity.
  - destruct (Hv "beanie" eq_refl) as (_ & _ & Hb). apply Hb. discriminate.
Defined.

Lemma backend_other_value_beanie_witness :
  ({[ "FASTAPI_USERS_BACKEND" := "sqlalchmy" ]} : gmap string string)
    !! "FASTAPI_USERS_BACKEND" = Some "sqlalchmy" /\
  Import_time.import_module {[ "FASTAPI_USERS_BACKEND" := "sqlalchmy" ]}
    = Import_time.Globals "sqlalchmy" Import_time.Beanie.
Proof.
  split; [reflexivity|].
  refine (proj1 (backend_other_value_beanie
                   {[ "FASTAPI_USERS_BACKEND" := "sqlalchmy" ]} "sqlalchmy" _ _));
    [reflexivity | discriminate].
Defined.

Example import_empty_value :
  Import_time.imported (Import_time.import_module {[ "FASTAPI_USERS_BACKEND" := "" ]})
  = Import_time.Beanie.
Proof. vm_compute. reflexivity. Qed.

Example import_beanie :
  Import_time.import_module {[ "FASTAPI_USERS_BACKEND" := "beanie" ]}
  = Import_time.Globals "beanie" Import_time.Beanie.
Proof. vm_compute. reflexivity. Qed.

(** * Further properties of the handlers and the application *)

Section Handler_more.

Context {Id : Type} {str_Id : Identifier Id}.

Implicit Types (user : User Id) (item : ItemCreate).

(** X1. The dict of [protected_endpoint] has the three keys of the
    literal and no other: whatever further attributes the user carries,
    none of them appears in the answer under its own name. *)
Theorem protected_endpoint_no_other_key user (k : string) :
  is_Some (protected_endpoint user !! k) <->
  k = "message" \/ k = "user_id" \/ k = "username".
Proof.
  rewrite <- elem_of_dom, protected_endpoint_keys.
  rewrite !elem_of_union, !elem_of_singleton. tauto.
Qed.

(** X2. The dict of [admin_only_endpoint] has the keys [message] and
    [is_superuser] and no other. *)
Theorem admin_only_endpoint_no_other_key user (k : string) :
  is_Some (admin_only_endpoint user !! k) <->
  k = "message" \/ k = "is_superuser".
Proof.
  rewrite <- elem_of_dom, admin_only_endpoint_keys.
  rewrite !elem_of_union, !elem_of_singleton. tauto.
Qed.

(** X3. The [message] of [admin_only_endpoint] is a string that contains
    the user's email, and its [is_superuser] entry is the user's flag,
    also when the flag is off: the handler itself checks nothing. *)
Theorem admin_only_endpoint_message_and_flag user :
  (exists msg, admin_only_endpoint user !! "message" = Some (VStr msg) /\
               contains (email user) msg = true) /\
  admin_only_endpoint user !! "is_superuser" = Some (VBool (is_superuser user)).
Proof.
  unfold admin_only_endpoint. split.
  - eexists. split; [by simplify_map_eq|]. apply contains_middle.
  - by simplify_map_eq.
Qed.

(** X4. [create_item] returns an item exactly when the body has a
    description. The item it returns carries the body's title and
    description, the id 1 and the caller's identifier as owner; for a
    body without a description it raises the constructor's error. *)
Theorem create_item_preserves_body item user :
  (forall r, create_item item user = inr r ->
     mkItemCreate (ir_title r) (ir_description r) = item /\
     ir_id r = 1 /\ ir_owner_id r = str (id user)) /\
  (is_Some (ic_description item) <-> exists r, create_item item user = inr r) /\
  (ic_description item = None ->
   create_item item user = inl (string_type "description")).
Proof.
  destruct item as [t [d|]]; unfold create_item; simpl.
  - split; [intros r [= <-]; by repeat split|].
    split; [split; eauto | discriminate].
  - split; [discriminate|].
    split; [split; [by intros [? [=]] | by intros [? [=]]] | reflexivity].
Qed.

(** X5. When [create_item] returns an item for a user, every item
    [get_user_items] lists for that user has the same owner; a user
    whose identifier has another string form is listed none with that
    owner. *)
Theorem owner_id_agrees item user r :
  create_item item user = inr r ->
  (forall it, it ∈ get_user_items user -> ir_owner_id it = ir_owner_id r) /\
  (forall user' it, str (id user') <> str (id user) ->
                    it ∈ get_user_items user' ->
                    ir_owner_id it <> ir_owner_id r).
Proof.
  intros Hr. destruct item as [t [d|]]; unfold create_item in Hr; simpl in Hr;
    [|discriminate]. injection Hr as <-. simpl. split.
  - intros it Hin. apply list_elem_of_singleton in Hin as ->. reflexivity.
  - intros user' it Hne Hin. apply list_elem_of_singleton in Hin as ->. exact Hne.
Qed.

End Handler_more.

Lemma create_item_preserves_body_witness :
  create_item (mkItemCreate "T" None) Demo.alice = inl (string_type "description") /\
  (forall r, create_item (mkItemCreate "T" (Some "d")) Demo.alice = inr r ->
     mkItemCreate (ir_title r) (ir_description r) = mkItemCreate "T" (Some "d")).
Proof.
  split.
  - apply (proj2 (proj2 (create_item_preserves_body (mkItemCreate "T" None) Demo.alice))).
    reflexivity.
  - intros r Hr.
    apply (proj1 (create_item_preserves_body (mkItemCreate "T" (Some "d")) Demo.alice) r Hr).
Defined.

Lemma owner_id_agrees_witness :
  create_item (mkItemCreate "T" (Some "d")) Demo.alice
    = inr (mkItemResponse 1 "T" (Some "d") (str (id Demo.alice))) /\
  str (id Demo.root) <> str (id Demo.alice) /\
  (forall it, it ∈ get_user_items Demo.root -> ir_owner_id it <> str (id Demo.alice)).
Proof.
  split; [reflexivity|]. split; [discriminate|].
  intros it Hin.
  refine (proj2 (owner_id_agrees (mkItemCreate "T" (Some "d")) Demo.alice
                   (mkItemResponse 1 "T" (Some "d") (str (id Demo.alice))) eq_refl)
            Demo.root it _ Hin).
  discriminate.
Defined.

Section Dispatch_more.

Context {Id : Type} {str_Id : Identifier Id}.
Variable no_route invalid_body : Request -> HTTPException.
Variable auth : @AuthModule Id.


Lemma route_get_user_items_run request :
  route_get_user_items auth request =
  match current_active_user auth request with
  | inl e => ([], inl e)
  | inr user => ([GetUserItems], inr (mkResponse 200 (JSONItems (get_user_items user))))
  end.
Proof.
  unfold route_get_user_items, Depends, mbind, async_bind.
  by destruct (current_active_user auth request).
Qed.

(** The router serves a request by one of the four routes, the one whose
    method and path it has, or by none. *)
Lemma router_inv request :
  (method request = "GET" /\ path request = "/examples/protected" /\
   router no_route invalid_body auth request = route_protected auth request) \/
  (method request = "GET" /\ path request = "/examples/admin-only" /\
   router no_route invalid_body auth request = route_admin_only auth request) \/
  (method request = "POST" /\ path request = "/examples/items" /\
   router no_route invalid_body auth request = route_create_item invalid_body auth request) \/
  (method request = "GET" /\ path request = "/examples/items" /\
   router no_route invalid_body auth request = route_get_user_items auth request) \/
  ((method request <> "GET" \/
    (path request <> "/examples/protected" /\ path request <> "/examples/admin-only" /\
     path request <> "/examples/items")) /\
   (method request <> "POST" \/ path request <> "/examples/items") /\
   router no_route invalid_body auth request = ([], inl (no_route request))).
Proof.
  unfold router, example_router, matches, raise.
  change (router_prefix +:+ "/protected") with "/examples/protected".
  change (router_prefix +:+ "/admin-only") with "/examples/admin-only".
  change (router_prefix +:+ "/items") with "/examples/items".
  simpl.
  destruct (String.eqb_spec (method request) "GET") as [Hg|Hg];
    destruct (String.eqb_spec (method request) "POST") as [Hp|Hp];
    destruct (String.eqb_spec (path request) "/examples/protected") as [H1|H1];
    destruct (String.eqb_spec (path request) "/examples/admin-only") as [H2|H2];
    destruct (String.eqb_spec (path request) "/examples/items") as [H3|H3];
    simpl; try congruence; tauto.
Qed.

Lemma app_router request :
  app no_route invalid_body auth request = router no_route invalid_body auth request.
Proof. unfold app. apply add_user_info_call_next. Qed.

End Dispatch_more.

Section Application_facts.

Context {Id : Type} {str_Id : Identifier Id}.
Variable no_route invalid_body : Request -> HTTPException.
Variable auth : @AuthModule Id.



(** X7. A request whose path does not start with the router's prefix
    [/examples], or whose method is neither GET nor POST, enters none of
    the file's handler bodies. *)
Theorem unrouted_request request :
  String.prefix "/examples" (path request) = false \/
  (method request <> "GET" /\ method request <> "POST") ->
  entered (app no_route invalid_body auth request) = [].
Proof.
  intros Hout. rewrite app_router.
  destruct (router_inv no_route invalid_body auth request)
    as [(Hm & Hp & _)|[(Hm & Hp & _)|[(Hm & Hp & _)|[(Hm & Hp & _)|(_ & _ & ->)]]]];
    [..|reflexivity];
    (destruct Hout as [Hpre|[Hg Hpo]]; [|congruence]);
    rewrite Hp in Hpre; discriminate Hpre.
Qed.

(** X8. [GET /examples/items] is served by [get_user_items], not by the
    POST route registered on the same path before it: a raising
    dependency ends the request with its exception, and a resolved user
    gets the list of [get_user_items] with status 200. *)
Theorem get_items_served request :
  method request = "GET" ->
  path request = "/examples/items" ->
  app no_route invalid_body auth request =
  match current_active_user auth request with
  | inl e => ([], inl e)
  | inr user => ([GetUserItems], inr (mkResponse 200 (JSONItems (get_user_items user))))
  end.
Proof.
  intros Hm Hp. rewrite app_router.
  destruct (router_inv no_route invalid_body auth request)
    as [(_ & Hp' & _)|[(_ & Hp' & _)|[(Hm' & _)|[(_ & _ & ->)|(Hn & _)]]]];
    try congruence.
  - apply route_get_user_items_run.
  - destruct Hn as [Hn|(_ & _ & Hn)]; congruence.
Qed.


(** X10. [add_user_info] on any downstream chain: when the chain raises,
    the middleware ends with the same exception and the same handler
    bodies entered; it catches nothing. *)
Theorem add_user_info_reraises request (call_next : Request -> Async Response) e :
  outcome (call_next request) = inl e ->
  add_user_info request call_next = (entered (call_next request), inl e).
Proof.
  intros He. rewrite add_user_info_call_next.
  destruct (call_next request) as [t r]. simpl in *. by rewrite He.
Qed.


End Application_facts.

Lemma unrouted_request_witness :
  String.prefix "/examples" (path (Demo.get "/protected" (Some "alice"))) = false /\
  entered (Demo.application (Demo.get "/protected" (Some "alice"))) = [].
Proof.
  split; [reflexivity|].
  apply (unrouted_request Demo.no_route Demo.invalid_body Demo.auth
           (Demo.get "/protected" (Some "alice"))).
  left. reflexivity.
Defined.

Lemma get_items_served_witness :
  Demo.application (Demo.get "/examples/items" (Some "alice"))
  = ([GetUserItems], inr (mkResponse 200 (JSONItems (get_user_items Demo.alice)))).
Proof.
  apply (get_items_served Demo.no_route Demo.invalid_body Demo.auth
           (Demo.get "/examples/items" (Some "alice"))); reflexivity.
Defined.


Lemma add_user_info_reraises_witness :
  add_user_info (Demo.get "/examples/admin-only" (Some "alice"))
    (router Demo.no_route Demo.invalid_body Demo.auth)
  = ([], inl Demo.forbidden).
Proof.
  apply (add_user_info_reraises (Demo.get "/examples/admin-only" (Some "alice"))
           (router Demo.no_route Demo.invalid_body Demo.auth) Demo.forbidden).
  reflexivity.
Defined.


Section Import_more.

Import Import_time.

Implicit Types env : environ.

(** X12. The import looks at no other variable of the environment:
    setting or removing any variable other than [FASTAPI_USERS_BACKEND]
    leaves the module's globals as they were. *)
Theorem import_ignores_other_variables env (k v : string) :
  k <> "FASTAPI_USERS_BACKEND" ->
  import_module (<[k := v]> env) = import_module env /\
  import_module (delete k env) = import_module env.
Proof.
  intros Hk. unfold import_module. rewrite !module_top_run.
  by rewrite lookup_insert_ne, lookup_delete_ne.
Qed.

(** X13. The sqlalchemy-backed module is imported exactly when the
    variable is unset or set to the string "sqlalchemy"; setting it to
    "sqlalchemy" gives the globals of an environment without it. *)
Theorem sqlalchemy_iff_unset_or_named env :
  (imported (import_module env) = Sqlalchemy <->
   env !! "FASTAPI_USERS_BACKEND" = None \/
   env !! "FASTAPI_USERS_BACKEND" = Some "sqlalchemy") /\
  import_module (<["FASTAPI_USERS_BACKEND" := "sqlalchemy"]> env)
  = import_module (delete "FASTAPI_USERS_BACKEND" env).
Proof.
  unfold import_module. rewrite !module_top_run.
  rewrite lookup_insert_eq, lookup_delete_eq. split; [|reflexivity].
  destruct (env !! "FASTAPI_USERS_BACKEND") as [v|]; simpl.
  - destruct (String.eqb_spec v "sqlalchemy") as [->|Hne]; simpl.
    + split; [by right | reflexivity].
    + split; [discriminate | intros [[=]|[=]]; by destruct Hne].
  - split; [by left | reflexivity].
Qed.

End Import_more.

(** X14. The dependencies that guard the served routes are those of the
    module the switch imported: [app.auth.manager]'s when the variable
    is unset or "sqlalchemy", [app.auth.manager_beanie]'s for every other
    value; the other module's are not consulted. *)
Theorem serve_selects_dependencies {Id : Type} {str_Id : Identifier Id}
    (manager manager_beanie : @AuthModule Id)
    (no_route invalid_body : Request -> HTTPException)
    (env : gmap string string) (request : Request) :
  serve manager manager_beanie no_route invalid_body env request =
  match env !! "FASTAPI_USERS_BACKEND" with
  | None => app no_route invalid_body manager request
  | Some v =>
      if decide (v = "sqlalchemy")
      then app no_route invalid_body manager request
      else app no_route invalid_body manager_beanie request
  end.
Proof.
  unfold serve, Import_time.import_module. rewrite module_top_run.
  destruct (env !! "FASTAPI_USERS_BACKEND") as [v|]; [|reflexivity].
  destruct (decide (v = "sqlalchemy")) as [->|Hne]; [reflexivity|].
  cbv zeta. destruct (String.eqb_spec v "sqlalchemy") as [Heq|_];
    [by destruct Hne | reflexivity].
Qed.

Lemma import_ignores_other_variables_witness :
  Import_time.import_module (<["HOME" := "/root"]> ∅) = Import_time.import_module ∅ /\
  Import_time.import_module (delete "HOME" ∅) = Import_time.import_module ∅.
Proof.
  apply (import_ignores_other_variables ∅ "HOME" "/root"). discriminate.
Defined.

Example serve_beanie_ignores_manager :
  serve Demo.auth (mkAuthModule (fun _ => inl Demo.forbidden) (fun _ => inl Demo.forbidden))
    Demo.no_route Demo.invalid_body {[ "FASTAPI_USERS_BACKEND" := "beanie" ]}
    (Demo.get "/examples/protected" (Some "alice"))
  = ([], inl Demo.forbidden).
Proof. vm_compute. reflexivity. Qed.

